(** * Septic-shock early-warning calculator: scoring and explanation pipeline

    Shallow embedding of [app1.py]: the feature record handed to the
    classifier, the probability read back from it, the risk banner chosen
    from that probability, and the slice taken out of the SHAP explanation.

    A probability is a binary64 value. It is modelled by [spec_float], the
    IEEE-754 specification type of the standard library, and Python's
    comparisons on floats by [SFleb] and [SFltb], which are false as soon
    as one side is NaN. *)

From Stdlib Require Import ZArith QArith Qabs Lia Bool List.
From Stdlib Require Import Sorting.Sorted Sorting.Permutation.
From Stdlib Require Import Floats.SpecFloat Floats.PrimFloat Floats.FloatOps.
From stdpp Require Import base option list strings gmap.

Set Warnings "-inexact-float".
Local Open Scope Z_scope.

(** ** Binary64 values *)

Module Float64.

Definition prec : Z := 53.
Definition emax : Z := 1024.

(** The literal [0.50]: exactly one half. *)
Definition c050 : spec_float := S754_finite false 4503599627370496 (-53).

(** The literal [0.20]: the double nearest to one fifth,
    [0x1.999999999999ap-3]. *)
Definition c020 : spec_float := S754_finite false 7205759403792794 (-55).

Definition zero : spec_float := S754_zero false.
Definition one : spec_float := S754_finite false 4503599627370496 (-52).
Definition nan : spec_float := S754_nan.

(** Python's [a >= b] on floats is IEEE [b <= a]. *)
Definition ge (a b : spec_float) : bool := SFleb b a.
Definition lt (a b : spec_float) : bool := SFltb a b.

(** A well-formed double: canonical mantissa and exponent in range. *)
Definition valid (x : spec_float) : bool := valid_binary prec emax x.

(** The rational a finite double stands for ([0] for the others). *)
Definition to_Q (x : spec_float) : Q :=
  match x with
  | S754_finite s m e =>
      let n := if s then Z.neg m else Z.pos m in
      match e with
      | Z0 => inject_Z n
      | Z.pos k => inject_Z (n * 2 ^ Z.pos k)
      | Z.neg k => Qmake n (2 ^ k)
      end
  | _ => 0%Q
  end.

Definition is_finite (x : spec_float) : bool :=
  match x with
  | S754_finite _ _ _ | S754_zero _ => true
  | _ => false
  end.

End Float64.

(** ** The feature record (lines 42-84) *)

(** A cell of a data frame: an integer or a double. A missing value is the
    double NaN. *)
Inductive cell :=
| CInt (z : Z)
| CFloat (f : spec_float).

Definition NaN : cell := CFloat S754_nan.

(** The fifteen widget values. [st.checkbox] gives a boolean;
    [st.number_input] gives an integer when its bounds are integers and a
    double when they are doubles. *)
Record RawInputs := {
  Pneumonia : bool;
  COPD : bool;
  age : Z;
  heartrate : Z;
  SBP : Z;
  respiratoryrate : Z;
  spo2 : Z;
  temperature : spec_float;
  WBC : spec_float;
  Albumin : spec_float;
  ALT : Z;
  BUN : Z;
  sodium : Z;
  Plateletcount : Z;
  SOFA : Z
}.

(** Python's [int] on a boolean. *)
Definition int (b : bool) : Z := if b then 1 else 0.

(** The dictionary literal of lines 68-84, in source order. *)
Definition record_items (r : RawInputs) : list (string * cell) :=
  [ ("Pneumonia", CInt (int (Pneumonia r)));
    ("COPD", CInt (int (COPD r)));
    ("age", CInt (age r));
    ("heartrate", CInt (heartrate r));
    ("SBP", CInt (SBP r));
    ("respiratoryrate", CInt (respiratoryrate r));
    ("spo2", CInt (spo2 r));
    ("temperature", CFloat (temperature r));
    ("WBC", CFloat (WBC r));
    ("Albumin", CFloat (Albumin r));
    ("ALT", CInt (ALT r));
    ("BUN", CInt (BUN r));
    ("sodium", CInt (sodium r));
    ("Plateletcount", CInt (Plateletcount r));
    ("SOFA", CInt (SOFA r)) ].

Definition record_dict (r : RawInputs) : gmap string cell :=
  list_to_map (record_items r).

(** The keys of that dictionary. *)
Definition known_names : list string :=
  [ "Pneumonia"; "COPD"; "age"; "heartrate"; "SBP"; "respiratoryrate";
    "spo2"; "temperature"; "WBC"; "Albumin"; "ALT"; "BUN"; "sodium";
    "Plateletcount"; "SOFA" ].

(** A data frame: column labels and rows of cells. *)
Record DataFrame := {
  columns : list string;
  rows : list (list cell)
}.

(** [pd.DataFrame(records, columns=cols)] on a list of dictionaries: the
    frame has exactly the columns [cols], in that order; each row reads its
    dictionary at every label, with NaN where the key is absent. Keys that
    are not among [cols] are not looked at. *)
Definition pd_DataFrame (records : list (gmap string cell))
    (cols : list string) : DataFrame :=
  {| columns := cols;
     rows := map (fun d => map (fun c => default NaN (d !! c)) cols) records |}.

(** Lines 68-84. *)
Definition input_data (r : RawInputs) (feature_names_in_ : list string)
    : DataFrame :=
  pd_DataFrame [record_dict r] feature_names_in_.

(** Cell of row [i], column position [j]. *)
Definition iat (X : DataFrame) (i j : nat) : option cell :=
  row ← rows X !! i; row !! j.

(** ** The two external collaborators *)

(** The unpickled classifier: its expected feature order and its
    probability prediction, one row of class probabilities per sample.
    [None] stands for a raised exception. *)
Record Classifier := {
  feature_names_in_ : list string;
  predict_proba : DataFrame -> option (list (list spec_float))
}.

(** A SHAP explanation of a batch: [values] is indexed by sample, feature
    and class, [base_values] by sample and class, [data] by sample and
    feature. *)
Record Explanation := {
  values : list (list (list spec_float));
  base_values : list (list spec_float);
  data : list (list cell);
  feature_names : list string
}.

(** The explanation of one sample for one class. *)
Record Explanation1 := {
  values1 : list spec_float;
  base_value1 : spec_float;
  data1 : list cell;
  feature_names1 : list string
}.

(** [shap.Explainer(model, feature_names=names)(X)]; [None] stands for a
    raised exception. *)
Definition Explainer : Type :=
  Classifier -> list string -> DataFrame -> option Explanation.

(** [e[i, :, c]]: sample [i], every feature, class [c]. An index out of
    range is an error. The tables meant are those with at least one
    feature, as every explanation of a fitted classifier has. *)
Definition getitem (e : Explanation) (i c : nat) : option Explanation1 :=
  sample ← values e !! i;
  vals ← mapM (.!! c) sample;
  base ← base_values e !! i ≫= (.!! c);
  d ← data e !! i;
  mret {| values1 := vals; base_value1 := base; data1 := d;
          feature_names1 := feature_names e |}.

(** ** Risk tiering (lines 100-105) *)

Inductive RiskTier := Low | Moderate | High.

Definition tier (prob : spec_float) : RiskTier :=
  if Float64.ge prob Float64.c050 then High
  else if Float64.ge prob Float64.c020 then Moderate
  else Low.

(** The text each branch displays. *)
Definition message (t : RiskTier) : string :=
  match t with
  | High => "🚨 **High Risk**: Immediate evaluation and early aggressive intervention recommended."
  | Moderate => "⚠️ **Moderate Risk**: Close monitoring and early warning advised."
  | Low => "✅ **Low Risk**: Continue routine ICU care and observation."
  end.

(** The message of tier [t] has [text] in it. *)
Definition carries (t : RiskTier) (text : string) : Prop :=
  exists before after : string, message t = before +:+ text +:+ after.

(** ** One run of the script *)

Inductive exn := IndexError | ClassifierError | ExplainerError.

Inductive result (A : Type) :=
| Ok (a : A)
| Raise (e : exn).
Arguments Ok {A} a.
Arguments Raise {A} e.

(** What a run does to the outside: calls of the two collaborators and
    widgets drawn on the page. [StMetric] holds the double that line 97
    formats as a percentage with two decimals; the formatting itself is
    not modelled, so the event stands for the value read, not for the
    text on the page. *)
Inductive event :=
| CallPredictProba (X : DataFrame)
| CallExplainer (names : list string) (X : DataFrame)
| StMarkdown (body : string)
| StMetric (label : string) (value : spec_float)
| StError (body : string)
| StWarning (body : string)
| StSuccess (body : string)
| Waterfall (e : Explanation1)
| StPyplot.

(** A computation that logs events and may stop on an exception. *)
Definition Run (A : Type) : Type := list event * result A.

#[global] Instance run_ret : MRet Run := fun A a => ([], Ok a).

#[global] Instance run_bind : MBind Run := fun A B f m =>
  match m with
  | (log, Ok a) => let '(log', r) := f a in (log ++ log', r)
  | (log, Raise e) => (log, Raise e)
  end.

Definition emit (ev : event) : Run unit := ([ev], Ok tt).

(** A call of a collaborator: logged, then its answer or its exception. *)
Definition call {A : Type} (ev : event) (e : exn) (answer : option A) : Run A :=
  ([ev], match answer with Some a => Ok a | None => Raise e end).

(** A subscript: its value, or [IndexError]. *)
Definition subscript {A : Type} (x : option A) : Run A :=
  ([], match x with Some a => Ok a | None => Raise IndexError end).

(** Lines 100-105. *)
Definition banner (prob : spec_float) : Run unit :=
  match tier prob with
  | High => emit (StError (message High))
  | Moderate => emit (StWarning (message Moderate))
  | Low => emit (StSuccess (message Low))
  end.

(** Line 92 without the call: row 0, column 1 of the class probabilities. *)
Definition positive_class_of_first (proba : list (list spec_float))
    : option spec_float :=
  proba !! 0%nat ≫= (.!! 1%nat).

(** Lines 68-124. The frame is built on every run; the rest happens when
    the button is pressed. *)
Definition script (model : Classifier) (shap_Explainer : Explainer)
    (r : RawInputs) (button : bool) : Run unit :=
  let X := input_data r (feature_names_in_ model) in
  if button then
    proba ← call (CallPredictProba X) ClassifierError (predict_proba model X);
    prob ← subscript (positive_class_of_first proba);
    emit (StMarkdown "## 🔍 Prediction Result");;
    emit (StMetric "Probability of Septic Shock Within 12 Hours" prob);;
    banner prob;;
    emit (StMarkdown "---");;
    emit (StMarkdown "## 🧠 Individual Explanation (SHAP)");;
    shap_exp ← call (CallExplainer (columns X) X) ExplainerError
                 (shap_Explainer model (columns X) X);
    shap_single ← subscript (getitem shap_exp 0 1);
    emit (Waterfall shap_single);;
    emit StPyplot
  else mret tt.

(** What has been logged when the explainer has been called. *)
Definition shown_before_explanation (X : DataFrame) (prob : spec_float)
    : list event :=
  [ CallPredictProba X;
    StMarkdown "## 🔍 Prediction Result";
    StMetric "Probability of Septic Shock Within 12 Hours" prob;
    match tier prob with
    | High => StError (message High)
    | Moderate => StWarning (message Moderate)
    | Low => StSuccess (message Low)
    end;
    StMarkdown "---";
    StMarkdown "## 🧠 Individual Explanation (SHAP)";
    CallExplainer (columns X) X ].

(** ** Additive explanations *)

(** Entry of row [i], column [c] of a table of class probabilities. *)
Definition entry2 (proba : list (list spec_float)) (i c : nat)
    : option spec_float :=
  proba !! i ≫= (.!! c).

Definition Qsum (l : list Q) : Q := fold_right Qplus 0%Q l.

(** What the feature whose per-class contributions are [per_class] adds
    to class [c], as a rational. *)
Definition contribution_to (c : nat) (per_class : list spec_float) : Q :=
  Float64.to_Q (default (S754_zero false) (per_class !! c)).

(** The contract of an additive attribution method, stated on the table it
    returns for the frame [X], for which the classifier answered [proba]:
    every sample has one row of contributions per column of the frame;
    and for every sample [i] and class [c] that has a base value, every
    feature has a finite contribution to that class, and the base value
    plus the contributions of all the features to that class is within
    [eps] of the probability of class [c] on sample [i]. *)
Definition locally_accurate (eps : Q) (X : DataFrame)
    (proba : list (list spec_float)) (e : Explanation) : Prop :=
  Forall (fun sample => length sample = length (columns X)) (values e) /\
  forall (i c : nat) (sample : list (list spec_float))
         (bases : list spec_float) (base p : spec_float),
    values e !! i = Some sample ->
    base_values e !! i = Some bases ->
    bases !! c = Some base ->
    entry2 proba i c = Some p ->
    Forall (fun per_class =>
              exists v, per_class !! c = Some v /\
                        Float64.is_finite v = true) sample /\
    Float64.is_finite base = true /\
    Float64.is_finite p = true /\
    (Qabs (Float64.to_Q base
           + Qsum (map (contribution_to c) sample)
           - Float64.to_Q p) < eps)%Q.

(** The contract of a binary probabilistic classifier on a frame: one row
    per sample, two class probabilities per row, each between 0 and 1. *)
Definition class_probabilities (X : DataFrame)
    (proba : list (list spec_float)) : Prop :=
  length proba = length (rows X) /\
  Forall (fun row =>
            length row = 2%nat /\
            Forall (fun p => Float64.ge p Float64.zero = true /\
                             Float64.ge Float64.one p = true) row) proba.

(** An explanation of [n] samples with [k] classes: every sample has its
    table of contributions, its base values and its data row, and every
    feature and every base row has one entry per class. *)
Definition shaped (e : Explanation) (n k : nat) : Prop :=
  length (values e) = n /\ length (base_values e) = n /\
  length (data e) = n /\
  Forall (Forall (fun per_class => length per_class = k)) (values e) /\
  Forall (fun per_class => length per_class = k) (base_values e).

(** ** Sample collaborators and inputs *)

(** The illustrative defaults of the widgets. *)
Definition f36_8 : spec_float := Eval vm_compute in Prim2SF 36.8%float.
Definition f8_0 : spec_float := Eval vm_compute in Prim2SF 8.0%float.
Definition f3_5 : spec_float := Eval vm_compute in Prim2SF 3.5%float.

Definition default_inputs : RawInputs :=
  {| Pneumonia := false; COPD := false; age := 65; heartrate := 90;
     SBP := 120; respiratoryrate := 20; spo2 := 96;
     temperature := f36_8; WBC := f8_0; Albumin := f3_5;
     ALT := 30; BUN := 20; sodium := 135; Plateletcount := 200;
     SOFA := 6 |}.

(** A classifier that expects [names] and answers the same two class
    probabilities on every sample. *)
Definition constant_model (names : list string) (p0 p1 : spec_float)
    : Classifier :=
  {| feature_names_in_ := names;
     predict_proba := fun X => Some (map (fun _ => [p0; p1]) (rows X)) |}.

(** An explanation that puts everything in the base values: no feature
    contributes. *)
Definition base_only_explanation (p0 p1 : spec_float)
    (names : list string) (X : DataFrame) : Explanation :=
  {| values :=
       map (map (fun _ => [S754_zero false; S754_zero false])) (rows X);
     base_values := map (fun _ => [p0; p1]) (rows X);
     data := rows X;
     feature_names := names |}.

Definition base_only_explainer (p0 p1 : spec_float) : Explainer :=
  fun _ names X => Some (base_only_explanation p0 p1 names X).

(** An explanation with a single output per sample, as an explainer gives
    for a model with one output. *)
Definition single_output_explanation (p : spec_float)
    (names : list string) (X : DataFrame) : Explanation :=
  {| values := map (map (fun _ => [S754_zero false])) (rows X);
     base_values := map (fun _ => [p]) (rows X);
     data := rows X;
     feature_names := names |}.

Definition single_output_explainer (p : spec_float) : Explainer :=
  fun _ names X => Some (single_output_explanation p names X).

(** The expected order of a classifier trained without [SOFA]. *)
Definition names_without_SOFA : list string :=
  [ "Pneumonia"; "COPD"; "age"; "heartrate"; "SBP"; "respiratoryrate";
    "spo2"; "temperature"; "WBC"; "Albumin"; "ALT"; "BUN"; "sodium";
    "Plateletcount" ].

Definition quarter : spec_float := Eval vm_compute in Prim2SF 0.25%float.
Definition three_quarters : spec_float :=
  Eval vm_compute in Prim2SF 0.75%float.

Definition minus_quarter : spec_float :=
  Eval vm_compute in Prim2SF (-0.25)%float.

(** An explanation in which the first feature alone contributes: a quarter
    to class 0 and minus a quarter to class 1, from a base of one half for
    both classes. *)
Definition first_feature_explanation (names : list string) (X : DataFrame)
    : Explanation :=
  {| values :=
       map (fun _ =>
              match columns X with
              | [] => []
              | _ :: others =>
                  [quarter; minus_quarter]
                  :: map (fun _ => [S754_zero false; S754_zero false]) others
              end) (rows X);
     base_values := map (fun _ => [Float64.c050; Float64.c050]) (rows X);
     data := rows X;
     feature_names := names |}.

Definition first_feature_explainer : Explainer :=
  fun _ names X => Some (first_feature_explanation names X).

(** ** Ranking of attributions *)

Module Ranker.

(** Modelled from the spec: the repository has no ranking function of its
    own (the plot library orders the bars); an attribution vector is an
    ordered mapping from feature name to a signed contribution, plus a
    baseline. *)
Record AttributionVector := {
  baseline : Q;
  contributions : list (string * Q)
}.

Definition magnitude (x : string * Q) : Q := Qabs (snd x).

(** [x] may stand before [y]: its magnitude is at least that of [y]. *)
Definition outranks (x y : string * Q) : bool :=
  Qle_bool (magnitude y) (magnitude x).

(** Modelled from the spec: [x], which came before every entry of [l],
    is put in front of the first entry it outranks, so that it stays in
    front of the entries of equal magnitude. *)
Fixpoint insert_ranked (x : string * Q) (l : list (string * Q))
    : list (string * Q) :=
  match l with
  | [] => [x]
  | y :: l' => if outranks x y then x :: y :: l' else y :: insert_ranked x l'
  end.

(** Modelled from the spec: entries in descending absolute contribution,
    ties kept in the original feature order. *)
Fixpoint rank_entries (l : list (string * Q)) : list (string * Q) :=
  match l with
  | [] => []
  | x :: l' => insert_ranked x (rank_entries l')
  end.

(** Modelled from the spec: [rank(vector)], the ordered sequence of
    (feature, contribution) pairs. *)
Definition rank (v : AttributionVector) : list (string * Q) :=
  rank_entries (contributions v).

(** The entries of [l] whose magnitude is [q], in the order of [l]. *)
Definition of_magnitude (q : Q) (l : list (string * Q)) : list (string * Q) :=
  List.filter (fun x => Qeq_bool (magnitude x) q) l.

Definition descending (x y : string * Q) : Prop :=
  (magnitude y <= magnitude x)%Q.

End Ranker.

(** ** Order of the tiers, widget ranges, calls *)

(** Low, Moderate, High in increasing order of risk. *)
Definition tier_rank (t : RiskTier) : nat :=
  match t with Low => 0 | Moderate => 1 | High => 2 end.

(** The bounds of the three [st.number_input] widgets that take doubles
    (lines 52-54). *)
Definition f33_0 : spec_float := Eval vm_compute in Prim2SF 33.0%float.
Definition f42_0 : spec_float := Eval vm_compute in Prim2SF 42.0%float.
Definition f0_1 : spec_float := Eval vm_compute in Prim2SF 0.1%float.
Definition f100_0 : spec_float := Eval vm_compute in Prim2SF 100.0%float.
Definition f1_0 : spec_float := Eval vm_compute in Prim2SF 1.0%float.
Definition f6_0 : spec_float := Eval vm_compute in Prim2SF 6.0%float.

(** [lo <= x <= hi] on doubles. *)
Definition between (lo x hi : spec_float) : Prop :=
  SFleb lo x = true /\ SFleb x hi = true.

(** What the widgets of lines 43-61 can return: a number input stays
    between its minimum and its maximum; a checkbox is free. *)
Definition widget_ranges (r : RawInputs) : Prop :=
  18 <= age r <= 120 /\
  30 <= heartrate r <= 200 /\
  50 <= SBP r <= 250 /\
  5 <= respiratoryrate r <= 60 /\
  50 <= spo2 r <= 100 /\
  between f33_0 (temperature r) f42_0 /\
  between f0_1 (WBC r) f100_0 /\
  between f1_0 (Albumin r) f6_0 /\
  0 <= ALT r <= 10000 /\
  1 <= BUN r <= 300 /\
  110 <= sodium r <= 160 /\
  5 <= Plateletcount r <= 1000 /\
  0 <= SOFA r <= 24.

(** The events that are calls of a collaborator. *)
Definition is_call (ev : event) : bool :=
  match ev with
  | CallPredictProba _ | CallExplainer _ _ => true
  | _ => false
  end.

(** The events that put the result of the prediction on the page. *)
Definition is_banner (ev : event) : bool :=
  match ev with
  | StError _ | StWarning _ | StSuccess _ => true
  | _ => false
  end.

(** * Properties *)

(** ** The thresholds are the doubles the source literals denote *)

Lemma literal_050 : Prim2SF 0.50%float = Float64.c050.
Proof. vm_compute. reflexivity. Qed.

Lemma literal_020 : Prim2SF 0.20%float = Float64.c020.
Proof. vm_compute. reflexivity. Qed.

(** ** Comparison of doubles *)

Lemma SFcompare_antisym (a b : spec_float) :
  SFcompare a b = CompOpp <$> SFcompare b a.
Proof.
  destruct a as [sa|sa| |sa ma ea], b as [sb|sb| |sb mb eb]; simpl;
    try reflexivity; try (destruct sa; reflexivity);
    try (destruct sb; reflexivity);
    try (destruct sa, sb; reflexivity).
  destruct sa, sb; simpl; try reflexivity;
    rewrite (Z.compare_antisym eb ea);
    destruct (eb ?= ea); simpl; try reflexivity;
    change (Pos.compare_cont Eq ma mb) with (ma ?= mb)%positive;
    change (Pos.compare_cont Eq mb ma) with (mb ?= ma)%positive;
    rewrite (Pos.compare_antisym mb ma);
    destruct (mb ?= ma)%positive; reflexivity.
Qed.

Lemma SFcompare_total (a b : spec_float) :
  a <> S754_nan -> b <> S754_nan -> exists c, SFcompare a b = Some c.
Proof.
  destruct a as [sa|sa| |sa ma ea], b as [sb|sb| |sb mb eb];
    intros Ha Hb; try congruence; simpl; eauto.
Qed.

Lemma lt_not_ge (a b : spec_float) :
  Float64.lt a b = true -> Float64.ge a b = false.
Proof.
  unfold Float64.lt, Float64.ge, SFltb, SFleb.
  rewrite (SFcompare_antisym b a).
  destruct (SFcompare a b) as [[]|]; simpl; congruence.
Qed.

Lemma not_ge_lt (a b : spec_float) :
  a <> S754_nan -> b <> S754_nan ->
  Float64.ge a b = false -> Float64.lt a b = true.
Proof.
  intros Ha Hb. unfold Float64.lt, Float64.ge, SFltb, SFleb.
  rewrite (SFcompare_antisym b a).
  destruct (SFcompare_total a b Ha Hb) as [c ->].
  destruct c; simpl; congruence.
Qed.

Lemma ge_not_nan (a b : spec_float) :
  Float64.ge a b = true -> a <> S754_nan.
Proof.
  unfold Float64.ge, SFleb. intros H ->.
  destruct b; simpl in H; congruence.
Qed.

Lemma SFcompare_finite_pos (m1 m2 : positive) (e1 e2 : Z) :
  SFcompare (S754_finite false m1 e1) (S754_finite false m2 e2) =
  Some match e1 ?= e2 with
       | Lt => Lt
       | Gt => Gt
       | Eq => (m1 ?= m2)%positive
       end.
Proof. reflexivity. Qed.

Lemma ge_c050_ge_c020 (p : spec_float) :
  Float64.ge p Float64.c050 = true -> Float64.ge p Float64.c020 = true.
Proof.
  unfold Float64.ge, SFleb, Float64.c050, Float64.c020.
  destruct p as [s|s| |s m e].
  - destruct s; simpl; congruence.
  - destruct s; simpl; congruence.
  - simpl; congruence.
  - destruct s; [simpl; congruence|].
    rewrite !SFcompare_finite_pos.
    destruct (Z.compare_spec (-53) e) as [He|He|He]; try congruence.
    + subst e. intros _. reflexivity.
    + intros _. destruct (Z.compare_spec (-55) e) as [H|H|H];
        first [reflexivity | lia].
Qed.

(** ** The tier of a probability *)

Lemma tier_high_iff (p : spec_float) :
  tier p = High <-> Float64.ge p Float64.c050 = true.
Proof.
  unfold tier. destruct (Float64.ge p Float64.c050).
  - tauto.
  - destruct (Float64.ge p Float64.c020); split; congruence.
Qed.

Lemma tier_moderate_iff (p : spec_float) :
  tier p = Moderate <->
  Float64.ge p Float64.c020 = true /\ Float64.ge p Float64.c050 = false.
Proof.
  unfold tier. destruct (Float64.ge p Float64.c050).
  - split; [congruence | intros [_ H]; congruence].
  - destruct (Float64.ge p Float64.c020); split; try tauto; try congruence.
    intros [H _]; congruence.
Qed.

Lemma tier_low_iff (p : spec_float) :
  tier p = Low <-> Float64.ge p Float64.c020 = false.
Proof.
  unfold tier. destruct (Float64.ge p Float64.c050) eqn:H50.
  - rewrite (ge_c050_ge_c020 _ H50). split; congruence.
  - destruct (Float64.ge p Float64.c020); split; congruence.
Qed.

Lemma c050_not_nan : Float64.c050 <> S754_nan.
Proof. discriminate. Qed.

Lemma c020_not_nan : Float64.c020 <> S754_nan.
Proof. discriminate. Qed.

(** C1: on a probability, that is a double between 0 and 1, the tier is
    High exactly when [p >= 0.50], Moderate exactly when
    [0.20 <= p < 0.50] and Low exactly when [p < 0.20]; the two boundary
    values belong to the higher tier, and the six sample points of the
    specification get the tiers it lists. *)
Theorem tier_thresholds (p : spec_float) :
  Float64.ge p Float64.zero = true ->
  Float64.ge Float64.one p = true ->
  (tier p = High <-> Float64.ge p Float64.c050 = true) /\
  (tier p = Moderate <->
     Float64.ge p Float64.c020 = true /\ Float64.lt p Float64.c050 = true) /\
  (tier p = Low <-> Float64.lt p Float64.c020 = true) /\
  tier Float64.c050 = High /\
  tier Float64.c020 = Moderate /\
  tier (Prim2SF 0.00%float) = Low /\
  tier (Prim2SF 0.1999%float) = Low /\
  tier (Prim2SF 0.4999%float) = Moderate /\
  tier (Prim2SF 1.00%float) = High.
Proof.
  intros H0 _. pose proof (ge_not_nan _ _ H0) as Hp.
  split; [apply tier_high_iff|].
  split.
  { rewrite tier_moderate_iff. split; intros [H20 H50]; split; trivial.
    - apply not_ge_lt; auto using c050_not_nan.
    - apply lt_not_ge; trivial. }
  split.
  { rewrite tier_low_iff. split; intros H.
    - apply not_ge_lt; auto using c020_not_nan.
    - apply lt_not_ge; trivial. }
  repeat split; vm_compute; reflexivity.
Qed.

Lemma tier_thresholds_witness :
  Float64.ge Float64.c020 Float64.zero = true /\
  Float64.ge Float64.one Float64.c020 = true /\
  (tier Float64.c020 = Moderate <->
     Float64.ge Float64.c020 Float64.c020 = true /\
     Float64.lt Float64.c020 Float64.c050 = true).
Proof.
  split; [reflexivity|]. split; [reflexivity|].
  apply (tier_thresholds Float64.c020); reflexivity.
Defined.

(** C9: the branch is exhaustive over every double, not only over
    probabilities. Every input gets one tier; High is exactly
    [p >= 0.50], whatever the size of [p]; Low is exactly the failure of
    [p >= 0.20], which covers every [p < 0.20] and NaN. *)
Theorem tier_exhaustive_all_floats (p : spec_float) :
  (tier p = High \/ tier p = Moderate \/ tier p = Low) /\
  (tier p = High <-> Float64.ge p Float64.c050 = true) /\
  (tier p = Low <-> Float64.ge p Float64.c020 = false) /\
  (Float64.lt p Float64.c020 = true -> tier p = Low) /\
  tier S754_nan = Low /\
  Float64.ge S754_nan Float64.c050 = false /\
  Float64.ge S754_nan Float64.c020 = false /\
  tier (Prim2SF (-1)%float) = Low /\
  tier (S754_infinity true) = Low /\
  tier (Prim2SF 2%float) = High /\
  tier (S754_infinity false) = High.
Proof.
  split; [destruct (tier p); auto|].
  split; [apply tier_high_iff|].
  split; [apply tier_low_iff|].
  split; [intros H; apply tier_low_iff, lt_not_ge, H|].
  repeat split; vm_compute; reflexivity.
Qed.

(** ** The feature record *)

Lemma lookup_map {A B : Type} (f : A -> B) (l : list A) (i : nat) :
  map f l !! i = f <$> l !! i.
Proof.
  revert i. induction l as [|a l IH]; intros [|i]; simpl; auto.
Qed.

Lemma input_data_columns (r : RawInputs) (cols : list string) :
  columns (input_data r cols) = cols.
Proof. reflexivity. Qed.

Lemma input_data_rows (r : RawInputs) (cols : list string) :
  rows (input_data r cols) =
  [map (fun c => default NaN (record_dict r !! c)) cols].
Proof. reflexivity. Qed.

Lemma iat_input_data (r : RawInputs) (cols : list string) (j : nat)
    (name : string) :
  cols !! j = Some name ->
  iat (input_data r cols) 0 j = Some (default NaN (record_dict r !! name)).
Proof.
  intros H. unfold iat. rewrite input_data_rows. simpl.
  rewrite lookup_map, H. reflexivity.
Qed.

Lemma record_dict_unknown (r : RawInputs) (name : string) :
  (name ∉ known_names) -> record_dict r !! name = None.
Proof.
  intros H. apply not_elem_of_list_to_map_1. exact H.
Qed.

(** C2: whatever the fifteen inputs and whatever the expected order, the
    frame has one row, its columns are the expected order, and the cell
    under each of the fifteen names is the input of that name: the two
    booleans as 0 or 1, every other value as it was entered. *)
Theorem input_data_order_and_values (r : RawInputs) (cols : list string) :
  columns (input_data r cols) = cols /\
  (exists row, rows (input_data r cols) = [row] /\ length row = length cols) /\
  forall (j : nat) (name : string), cols !! j = Some name ->
    (name = "Pneumonia" ->
       iat (input_data r cols) 0 j
       = Some (CInt (if Pneumonia r then 1 else 0))) /\
    (name = "COPD" ->
       iat (input_data r cols) 0 j = Some (CInt (if COPD r then 1 else 0))) /\
    (name = "age" -> iat (input_data r cols) 0 j = Some (CInt (age r))) /\
    (name = "heartrate" ->
       iat (input_data r cols) 0 j = Some (CInt (heartrate r))) /\
    (name = "SBP" -> iat (input_data r cols) 0 j = Some (CInt (SBP r))) /\
    (name = "respiratoryrate" ->
       iat (input_data r cols) 0 j = Some (CInt (respiratoryrate r))) /\
    (name = "spo2" -> iat (input_data r cols) 0 j = Some (CInt (spo2 r))) /\
    (name = "temperature" ->
       iat (input_data r cols) 0 j = Some (CFloat (temperature r))) /\
    (name = "WBC" -> iat (input_data r cols) 0 j = Some (CFloat (WBC r))) /\
    (name = "Albumin" ->
       iat (input_data r cols) 0 j = Some (CFloat (Albumin r))) /\
    (name = "ALT" -> iat (input_data r cols) 0 j = Some (CInt (ALT r))) /\
    (name = "BUN" -> iat (input_data r cols) 0 j = Some (CInt (BUN r))) /\
    (name = "sodium" ->
       iat (input_data r cols) 0 j = Some (CInt (sodium r))) /\
    (name = "Plateletcount" ->
       iat (input_data r cols) 0 j = Some (CInt (Plateletcount r))) /\
    (name = "SOFA" -> iat (input_data r cols) 0 j = Some (CInt (SOFA r))).
Proof.
  split; [reflexivity|]. split.
  { eexists. split; [apply input_data_rows|]. apply length_map. }
  intros j name Hj.
  rewrite (iat_input_data r cols j name Hj).
  repeat split; intros ->; reflexivity.
Qed.

(** ** Runs of the script *)

Lemma script_not_pressed (model : Classifier) (shap_Explainer : Explainer)
    (r : RawInputs) :
  script model shap_Explainer r false = ([], Ok tt).
Proof. reflexivity. Qed.

(** The first thing a run does is to call the classifier on the frame. *)
Lemma script_calls_classifier_first (model : Classifier)
    (shap_Explainer : Explainer) (r : RawInputs) :
  exists rest,
    (script model shap_Explainer r true).1
    = CallPredictProba (input_data r (feature_names_in_ model)) :: rest.
Proof.
  unfold script, call, mbind, run_bind.
  destruct (predict_proba model _) as [proba|]; [|eexists; reflexivity].
  destruct (subscript _) as [log [prob|e]]; [|eexists; reflexivity].
  match goal with |- context [let '(_, _) := ?x in _] => destruct x end.
  eexists. reflexivity.
Qed.

Lemma banner_run (prob : spec_float) :
  banner prob =
  ([match tier prob with
    | High => StError (message High)
    | Moderate => StWarning (message Moderate)
    | Low => StSuccess (message Low)
    end], Ok tt).
Proof. unfold banner. destruct (tier prob); reflexivity. Qed.

(** Every way a run with the button pressed can go. *)
Lemma script_pressed (model : Classifier) (shap_Explainer : Explainer)
    (r : RawInputs) :
  let X := input_data r (feature_names_in_ model) in
  script model shap_Explainer r true =
  match predict_proba model X with
  | None => ([CallPredictProba X], Raise ClassifierError)
  | Some proba =>
      match positive_class_of_first proba with
      | None => ([CallPredictProba X], Raise IndexError)
      | Some prob =>
          match shap_Explainer model (columns X) X with
          | None => (shown_before_explanation X prob, Raise ExplainerError)
          | Some e =>
              match getitem e 0 1 with
              | None => (shown_before_explanation X prob, Raise IndexError)
              | Some s =>
                  (shown_before_explanation X prob ++ [Waterfall s; StPyplot],
                   Ok tt)
              end
          end
      end
  end.
Proof.
  intros X. unfold script. fold X.
  unfold call, subscript, emit, mbind, run_bind.
  destruct (predict_proba model X) as [proba|]; [|reflexivity].
  destruct (positive_class_of_first proba) as [prob|]; [|reflexivity].
  rewrite banner_run.
  destruct (shap_Explainer model (columns X) X) as [e|]; [|reflexivity].
  destruct (getitem e 0 1) as [s|]; reflexivity.
Qed.

(** Closed decidable facts, by computation. *)
Ltac by_decide := apply (bool_decide_unpack _); vm_compute; exact I.

Ltac trace_cases H :=
  simpl in H;
  repeat match type of H with
         | _ ∈ _ ++ _ => apply elem_of_app in H as [H|H]
         | _ ∈ _ :: _ => apply elem_of_cons in H as [H|H]
         | _ ∈ [] => apply elem_of_nil in H; contradiction
         | _ = match ?t with Low => _ | Moderate => _ | High => _ end =>
             destruct t
         | @eq event _ _ => first [discriminate H | injection H as H]
         end.

(** A probability is displayed only when the classifier has answered, and
    it is entry (0, 1) of its answer. *)
Lemma metric_shown (model : Classifier) (shap_Explainer : Explainer)
    (r : RawInputs) (label : string) (prob : spec_float) :
  StMetric label prob ∈ (script model shap_Explainer r true).1 ->
  exists proba,
    predict_proba model (input_data r (feature_names_in_ model)) = Some proba
    /\ positive_class_of_first proba = Some prob.
Proof.
  rewrite script_pressed. cbv zeta.
  destruct (predict_proba model _) as [proba|]; simpl; intros H;
    [|trace_cases H].
  destruct (positive_class_of_first proba) as [prob'|] eqn:Hp;
    [|trace_cases H].
  assert (prob = prob') as ->.
  { destruct (shap_Explainer model _ _) as [e|];
      [destruct (getitem e 0 1)|]; simpl in H;
      unfold shown_before_explanation in H; trace_cases H; congruence. }
  eauto.
Qed.

(** A slice is plotted only when the explainer has answered, and it is
    the slice (0, :, 1) of its answer. *)
Lemma waterfall_shown (model : Classifier) (shap_Explainer : Explainer)
    (r : RawInputs) (s : Explanation1) :
  let X := input_data r (feature_names_in_ model) in
  Waterfall s ∈ (script model shap_Explainer r true).1 ->
  exists e,
    shap_Explainer model (columns X) X = Some e /\ getitem e 0 1 = Some s.
Proof.
  intros X. rewrite script_pressed. cbv zeta. fold X.
  destruct (predict_proba model _) as [proba|]; simpl; intros H;
    [|trace_cases H].
  destruct (positive_class_of_first proba) as [prob'|]; [|trace_cases H].
  destruct (shap_Explainer model _ _) as [e|];
    [destruct (getitem e 0 1) as [s'|] eqn:Hs|]; simpl in H;
    unfold shown_before_explanation in H; trace_cases H.
  subst. eauto.
Qed.

(** C10: assembling the record cannot fail, whatever names the classifier
    expects. The frame has one cell per expected name; a name that is not
    one of the fifteen inputs gets NaN; an input whose name is not expected
    has no column; and the frame so built is the argument of the
    classifier call that opens the run. *)
Theorem assembly_never_raises (model : Classifier)
    (shap_Explainer : Explainer) (r : RawInputs) :
  let X := input_data r (feature_names_in_ model) in
  columns X = feature_names_in_ model /\
  (forall (j : nat) (name : string),
     feature_names_in_ model !! j = Some name -> is_Some (iat X 0 j)) /\
  (forall (j : nat) (name : string),
     feature_names_in_ model !! j = Some name ->
     (name ∉ known_names) -> iat X 0 j = Some NaN) /\
  (forall name : string,
     (name ∈ known_names) -> (name ∉ feature_names_in_ model) ->
     (name ∉ columns X)) /\
  (exists rest,
     (script model shap_Explainer r true).1 = CallPredictProba X :: rest) /\
  script model shap_Explainer r false = ([], Ok tt).
Proof.
  intros X. split; [reflexivity|].
  split.
  { intros j name Hj. unfold X. rewrite (iat_input_data _ _ _ _ Hj). eauto. }
  split.
  { intros j name Hj Hname. unfold X.
    rewrite (iat_input_data _ _ _ _ Hj), (record_dict_unknown _ _ Hname).
    reflexivity. }
  split; [intros name _ Hname; exact Hname|].
  split; [apply script_calls_classifier_first | reflexivity].
Qed.

(** C6, as amended: when the expected order leaves out one of the fifteen
    names, nothing fails in the assembly. The frame has exactly the
    expected columns, so the input of that name is left out, and the run
    goes on to call the classifier on that frame. *)
Theorem omitted_name_is_dropped (model : Classifier)
    (shap_Explainer : Explainer) (r : RawInputs) (name : string) :
  (name ∈ known_names) ->
  (name ∉ feature_names_in_ model) ->
  let X := input_data r (feature_names_in_ model) in
  columns X = feature_names_in_ model /\
  (name ∉ columns X) /\
  (exists row, rows X = [row] /\
               length row = length (feature_names_in_ model)) /\
  exists rest,
    (script model shap_Explainer r true).1 = CallPredictProba X :: rest.
Proof.
  intros _ Hname X. split; [reflexivity|]. split; [exact Hname|].
  split.
  { eexists. split; [apply input_data_rows|]. apply length_map. }
  apply script_calls_classifier_first.
Qed.

Lemma omitted_name_is_dropped_witness :
  ("SOFA" ∈ known_names) /\
  ("SOFA" ∉ names_without_SOFA) /\
  ("SOFA" ∉ columns (input_data default_inputs names_without_SOFA)).
Proof.
  assert (H1 : "SOFA" ∈ known_names) by by_decide.
  assert (H2 : "SOFA" ∉ names_without_SOFA) by by_decide.
  split; [exact H1|]. split; [exact H2|].
  exact (proj1 (proj2 (omitted_name_is_dropped
                         (constant_model names_without_SOFA
                            three_quarters quarter)
                         (base_only_explainer three_quarters quarter)
                         default_inputs "SOFA" H1 H2))).
Defined.

(** C6, as stated, fails: with a classifier that expects every name but
    [SOFA], the run does not stop on an error before inference; it calls
    the classifier on the fourteen-column frame and runs to its end. *)
Lemma schema_mismatch_not_raised :
  let model := constant_model names_without_SOFA three_quarters quarter in
  let run := script model (base_only_explainer three_quarters quarter)
               default_inputs true in
  ("SOFA" ∈ known_names) /\
  ("SOFA" ∉ feature_names_in_ model) /\
  run.2 = Ok tt /\
  head run.1
  = Some (CallPredictProba (input_data default_inputs names_without_SOFA)) /\
  ~ ((exists e, run.2 = Raise e) /\
     forall X, CallPredictProba X ∉ run.1).
Proof.
  intros model run.
  assert (Hrun : run.2 = Ok tt) by (vm_compute; reflexivity).
  split; [by_decide|].
  split; [by_decide|].
  split; [exact Hrun|].
  split; [vm_compute; reflexivity|].
  intros [[e He] _]. rewrite Hrun in He. discriminate He.
Qed.

(** ** The probability read from the classifier *)

Lemma metric_in_shown (X : DataFrame) (prob : spec_float) :
  StMetric "Probability of Septic Shock Within 12 Hours" prob
  ∈ shown_before_explanation X prob.
Proof. unfold shown_before_explanation. do 2 right. left. Qed.

Lemma class_probabilities_single (X : DataFrame)
    (proba : list (list spec_float)) :
  length (rows X) = 1%nat ->
  class_probabilities X proba ->
  exists p0 p1,
    proba = [[p0; p1]] /\
    Float64.ge p1 Float64.zero = true /\ Float64.ge Float64.one p1 = true.
Proof.
  intros HX [Hlen Hrows]. rewrite HX in Hlen.
  destruct proba as [|row [|]]; try discriminate Hlen.
  apply Forall_cons in Hrows as [[Hrow Hp] _].
  destruct row as [|p0 [|p1 [|]]]; try discriminate Hrow.
  apply Forall_cons in Hp as [_ Hp].
  apply Forall_cons in Hp as [[H0 H1] _].
  exists p0, p1. auto.
Qed.

(** C3: when the classifier answers one row of two class probabilities per
    sample, each between 0 and 1, the value the run reads and displays is
    the entry of the only sample, row 0, for the positive class, column 1;
    it lies between 0 and 1; and it is the same whatever else takes part in
    the run, since it depends on the classifier and the record alone. *)
Theorem score_is_positive_class_probability (model : Classifier)
    (shap_Explainer : Explainer) (r : RawInputs)
    (proba : list (list spec_float)) :
  let X := input_data r (feature_names_in_ model) in
  predict_proba model X = Some proba ->
  class_probabilities X proba ->
  exists row0 prob,
    proba = [row0] /\ row0 !! 1%nat = Some prob /\
    positive_class_of_first proba = Some prob /\
    Float64.ge prob Float64.zero = true /\
    Float64.ge Float64.one prob = true /\
    StMetric "Probability of Septic Shock Within 12 Hours" prob
    ∈ (script model shap_Explainer r true).1 /\
    forall (other : Explainer) (label : string) (p : spec_float),
      StMetric label p ∈ (script model other r true).1 -> p = prob.
Proof.
  intros X Hcall Hproba.
  destruct (class_probabilities_single X proba eq_refl Hproba)
    as (p0 & p1 & -> & H0 & H1).
  exists [p0; p1], p1. repeat split; trivial.
  - rewrite script_pressed. cbv zeta. fold X. rewrite Hcall. simpl.
    destruct (shap_Explainer model _ _) as [e|];
      [destruct (getitem e 0 1)|]; simpl; do 2 right; left.
  - intros other label p Hp.
    apply metric_shown in Hp as (proba' & Hcall' & Hp).
    fold X in Hcall'. rewrite Hcall in Hcall'.
    injection Hcall' as <-. unfold positive_class_of_first in Hp.
    simpl in Hp. congruence.
Qed.

Lemma class_probabilities_constant (names : list string) (r : RawInputs) :
  class_probabilities (input_data r names) [[three_quarters; quarter]].
Proof.
  split; [reflexivity|].
  repeat constructor.
Qed.

Lemma score_is_positive_class_probability_witness :
  let model := constant_model known_names three_quarters quarter in
  let X := input_data default_inputs known_names in
  predict_proba model X = Some [[three_quarters; quarter]] /\
  class_probabilities X [[three_quarters; quarter]] /\
  exists row0 prob,
    [[three_quarters; quarter]] = [row0] /\ row0 !! 1%nat = Some prob /\
    positive_class_of_first [[three_quarters; quarter]] = Some prob /\
    Float64.ge prob Float64.zero = true /\
    Float64.ge Float64.one prob = true /\
    StMetric "Probability of Septic Shock Within 12 Hours" prob
    ∈ (script model (base_only_explainer three_quarters quarter)
         default_inputs true).1 /\
    forall (other : Explainer) (label : string) (p : spec_float),
      StMetric label p ∈ (script model other default_inputs true).1 ->
      p = prob.
Proof.
  intros model X.
  split; [reflexivity|].
  split; [apply class_probabilities_constant|].
  apply (score_is_positive_class_probability model
           (base_only_explainer three_quarters quarter) default_inputs
           [[three_quarters; quarter]]).
  - reflexivity.
  - apply class_probabilities_constant.
Defined.

(** ** The slice of the explanation *)

Lemma getitem_Some (e : Explanation) (i c : nat) (s : Explanation1) :
  getitem e i c = Some s <->
  exists sample bases,
    values e !! i = Some sample /\
    mapM (.!! c) sample = Some (values1 s) /\
    base_values e !! i = Some bases /\
    bases !! c = Some (base_value1 s) /\
    data e !! i = Some (data1 s) /\
    feature_names1 s = feature_names e.
Proof.
  unfold getitem. split.
  - intros H.
    destruct (values e !! i) as [sample|]; [|discriminate H].
    simpl in H.
    destruct (mapM (.!! c) sample) as [vals|] eqn:Hv; [|discriminate H].
    simpl in H.
    destruct (base_values e !! i) as [bases|]; [|discriminate H].
    simpl in H.
    destruct (bases !! c) as [base|] eqn:Hb; [|discriminate H].
    simpl in H.
    destruct (data e !! i) as [d|]; [|discriminate H].
    simpl in H. injection H as <-. simpl. eauto 10.
  - intros (sample & bases & -> & Hv & -> & Hb & -> & Hn). simpl.
    rewrite Hv. simpl. rewrite Hb. simpl. destruct s; simpl in *.
    subst. reflexivity.
Qed.

(** The slice holds, feature by feature, the contribution to class [c]. *)
Lemma mapM_lookup_class (sample : list (list spec_float)) (c : nat)
    (vals : list spec_float) :
  mapM (.!! c) sample = Some vals ->
  length vals = length sample /\
  forall (j : nat) (per_class : list spec_float),
    sample !! j = Some per_class -> vals !! j = per_class !! c.
Proof.
  intros H. apply mapM_Some in H. split.
  - symmetry. eapply Forall2_length, H.
  - intros j per_class Hj.
    destruct (Forall2_lookup_l _ _ _ _ _ H Hj) as (v & Hv & Hc).
    congruence.
Qed.

Lemma mapM_lookup_is_Some (sample : list (list spec_float)) (c k : nat) :
  Forall (fun per_class => length per_class = k) sample ->
  (c < k)%nat ->
  is_Some (mapM (.!! c) sample).
Proof.
  intros H Hc. apply mapM_is_Some.
  eapply Forall_impl; [exact H|].
  intros per_class Hlen. simpl in *. apply lookup_lt_is_Some. lia.
Qed.

Lemma getitem_shaped (e : Explanation) (n k i c : nat) :
  shaped e n k -> (i < n)%nat -> (c < k)%nat -> is_Some (getitem e i c).
Proof.
  intros (Hv & Hb & Hd & Hvk & Hbk) Hi Hc.
  destruct (lookup_lt_is_Some_2 (values e) i) as [sample Hs]; [lia|].
  destruct (lookup_lt_is_Some_2 (base_values e) i) as [bases Hbs]; [lia|].
  destruct (lookup_lt_is_Some_2 (data e) i) as [d Hds]; [lia|].
  pose proof (Forall_lookup_1 _ _ _ _ Hvk Hs) as Hsample.
  pose proof (Forall_lookup_1 _ _ _ _ Hbk Hbs) as Hbases. simpl in Hbases.
  destruct (mapM_lookup_is_Some sample c k Hsample Hc) as [vals Hvals].
  destruct (lookup_lt_is_Some_2 bases c) as [base Hbase]; [lia|].
  exists {| values1 := vals; base_value1 := base; data1 := d;
            feature_names1 := feature_names e |}.
  apply getitem_Some. exists sample, bases. simpl. auto 10.
Qed.

(** C4: when the explainer answers a table indexed by sample, feature and
    class, with at least one sample and two classes, the run takes out of
    it the slice of sample 0 for class 1: for every feature the
    contribution to class 1 in the table of sample 0, the base value of
    class 1 of sample 0, and the data row of sample 0. That slice, and no
    other, is what the run hands to the plot. *)
Theorem slice_is_first_sample_positive_class (model : Classifier)
    (shap_Explainer : Explainer) (r : RawInputs)
    (proba : list (list spec_float)) (prob : spec_float)
    (e : Explanation) (n k : nat) :
  let X := input_data r (feature_names_in_ model) in
  predict_proba model X = Some proba ->
  positive_class_of_first proba = Some prob ->
  shap_Explainer model (columns X) X = Some e ->
  shaped e n k -> (0 < n)%nat -> (1 < k)%nat ->
  exists s sample bases,
    getitem e 0 1 = Some s /\
    values e !! 0%nat = Some sample /\
    base_values e !! 0%nat = Some bases /\
    length (values1 s) = length sample /\
    (forall (j : nat) (per_class : list spec_float),
       sample !! j = Some per_class ->
       values1 s !! j = per_class !! 1%nat) /\
    bases !! 1%nat = Some (base_value1 s) /\
    data e !! 0%nat = Some (data1 s) /\
    feature_names1 s = feature_names e /\
    Waterfall s ∈ (script model shap_Explainer r true).1 /\
    (forall s' : Explanation1,
       Waterfall s' ∈ (script model shap_Explainer r true).1 -> s' = s) /\
    (script model shap_Explainer r true).2 = Ok tt.
Proof.
  intros X Hcall Hprob Hshap Hshape Hn Hk.
  destruct (getitem_shaped e n k 0 1 Hshape Hn Hk) as [s Hs].
  pose proof (proj1 (getitem_Some e 0 1 s) Hs)
    as (sample & bases & Hsample & Hvals & Hbases & Hbase & Hdata & Hnames).
  destruct (mapM_lookup_class sample 1 (values1 s) Hvals) as [Hlen Hval].
  exists s, sample, bases. repeat split; trivial.
  - rewrite script_pressed. cbv zeta. fold X.
    rewrite Hcall, Hprob, Hshap, Hs. cbn [fst].
    apply elem_of_app. right. left.
  - intros s' Hs'. apply waterfall_shown in Hs' as (e' & He' & Hs').
    fold X in He'. congruence.
  - rewrite script_pressed. cbv zeta. fold X.
    rewrite Hcall, Hprob, Hshap, Hs. reflexivity.
Qed.

Lemma slice_is_first_sample_positive_class_witness :
  let model := constant_model known_names three_quarters quarter in
  let shap_Explainer := base_only_explainer three_quarters quarter in
  let X := input_data default_inputs known_names in
  let e := base_only_explanation three_quarters quarter known_names X in
  predict_proba model X = Some [[three_quarters; quarter]] /\
  positive_class_of_first [[three_quarters; quarter]] = Some quarter /\
  shap_Explainer model (columns X) X = Some e /\
  shaped e 1 2 /\ (0 < 1)%nat /\ (1 < 2)%nat /\
  exists s,
    getitem e 0 1 = Some s /\
    base_value1 s = quarter /\
    length (values1 s) = 15%nat /\
    Waterfall s ∈ (script model shap_Explainer default_inputs true).1.
Proof.
  intros model shap_Explainer X e.
  assert (Hshape : shaped e 1 2).
  { repeat split; repeat constructor. }
  repeat (split; [first [reflexivity | exact Hshape | lia]|]).
  destruct (slice_is_first_sample_positive_class model shap_Explainer
              default_inputs [[three_quarters; quarter]] quarter e 1 2
              eq_refl eq_refl eq_refl Hshape)
    as (s & sample & bases & Hs & Hsample & Hbases & Hlen & _ & Hbase & _
          & _ & Hplot & _); [lia | lia |].
  exists s. split; [exact Hs|].
  injection Hsample as <-. injection Hbases as <-.
  injection Hbase as <-.
  split; [reflexivity|]. split; [exact Hlen | exact Hplot].
Defined.

(** ** The additive identity *)

(** The slice holds what the table holds for the class. *)
Lemma slice_values (c : nat) (sample : list (list spec_float))
    (vals : list spec_float) :
  Forall2 (fun per_class v => per_class !! c = Some v) sample vals ->
  map Float64.to_Q vals = map (contribution_to c) sample /\
  (Forall (fun per_class =>
             exists v, per_class !! c = Some v /\
                       Float64.is_finite v = true) sample ->
   Forall (fun v => Float64.is_finite v = true) vals).
Proof.
  induction 1 as [|per_class v sample vals Hv _ [IHq IHf]].
  - split; [reflexivity | constructor].
  - split.
    + simpl. unfold contribution_to at 1. rewrite Hv, IHq. reflexivity.
    + intros Hfin. apply Forall_cons in Hfin as [(v' & Hv' & Hf) Hfin].
      constructor; [congruence | auto].
Qed.

(** C5: take a classifier that expects fifteen features and an attribution
    method whose table, for the frame of the run, is additive within [eps]
    for every sample and class. Then the slice the run plots has fifteen
    contributions, all finite, and its base value plus the sum of its
    contributions is within [eps] of the probability the run read from the
    classifier. The slice is the one of sample 0 and class 1 of the table,
    and the probability is entry (0, 1) of the classifier's answer. *)
Theorem plotted_slice_adds_up_to_probability (eps : Q)
    (model : Classifier) (shap_Explainer : Explainer) (r : RawInputs)
    (proba : list (list spec_float)) (prob : spec_float)
    (s : Explanation1) :
  let X := input_data r (feature_names_in_ model) in
  length (feature_names_in_ model) = 15%nat ->
  (forall e : Explanation,
     shap_Explainer model (columns X) X = Some e ->
     locally_accurate eps X proba e) ->
  predict_proba model X = Some proba ->
  positive_class_of_first proba = Some prob ->
  Waterfall s ∈ (script model shap_Explainer r true).1 ->
  length (values1 s) = 15%nat /\
  Forall (fun v => Float64.is_finite v = true)
         (prob :: base_value1 s :: values1 s) /\
  (Qabs (Float64.to_Q (base_value1 s)
         + Qsum (map Float64.to_Q (values1 s))
         - Float64.to_Q prob) < eps)%Q.
Proof.
  intros X H15 Hacc Hcall Hprob Hplot.
  apply waterfall_shown in Hplot as (e & Hshap & Hs). fold X in Hshap.
  destruct (Hacc e Hshap) as [Hlen Hadd].
  apply getitem_Some in Hs
    as (sample & bases & Hsample & Hvals & Hbases & Hbase & _ & _).
  destruct (Hadd 0%nat 1%nat sample bases (base_value1 s) prob
              Hsample Hbases Hbase Hprob) as (Hfin & Hfb & Hfp & Hsum).
  apply mapM_Some in Hvals.
  destruct (slice_values 1 sample (values1 s) Hvals) as [Hq Hf].
  split.
  - rewrite <- (Forall2_length _ _ _ Hvals).
    rewrite (Forall_lookup_1 _ _ _ _ Hlen Hsample). exact H15.
  - split.
    + repeat (constructor; [assumption|]). apply Hf, Hfin.
    + rewrite Hq. exact Hsum.
Qed.

Lemma first_feature_accurate :
  let X := input_data default_inputs known_names in
  forall e : Explanation,
    first_feature_explainer
      (constant_model known_names three_quarters quarter) (columns X) X
    = Some e ->
    locally_accurate (1 # 10000) X [[three_quarters; quarter]] e.
Proof.
  intros X e He. injection He as <-. split.
  - repeat constructor.
  - intros i c sample bases base p Hsample Hbases Hbase Hp.
    destruct i as [|i]; [|discriminate Hsample].
    injection Hsample as <-. injection Hbases as <-.
    destruct c as [|[|c]]; [| |discriminate Hbase];
      injection Hbase as <-; injection Hp as <-;
      (split; [repeat (constructor; [eexists; split; reflexivity|]);
               constructor|]);
      repeat (split; [reflexivity|]); vm_compute; reflexivity.
Qed.

Lemma plotted_slice_adds_up_to_probability_witness :
  let model := constant_model known_names three_quarters quarter in
  let X := input_data default_inputs known_names in
  let s := {| values1 := minus_quarter :: replicate 14 (S754_zero false);
              base_value1 := Float64.c050;
              data1 := default (@nil cell) (rows X !! 0%nat);
              feature_names1 := known_names |} in
  length (feature_names_in_ model) = 15%nat /\
  (forall e : Explanation,
     first_feature_explainer model (columns X) X = Some e ->
     locally_accurate (1 # 10000) X [[three_quarters; quarter]] e) /\
  predict_proba model X = Some [[three_quarters; quarter]] /\
  positive_class_of_first [[three_quarters; quarter]] = Some quarter /\
  Waterfall s ∈ (script model first_feature_explainer default_inputs true).1
  /\
  length (values1 s) = 15%nat /\
  (Qabs (Float64.to_Q (base_value1 s)
         + Qsum (map Float64.to_Q (values1 s))
         - Float64.to_Q quarter) < 1 # 10000)%Q.
Proof.
  intros model X s.
  assert (Hplot :
            Waterfall s
            ∈ (script model first_feature_explainer default_inputs true).1)
    by (do 7 right; left).
  split; [reflexivity|]. split; [exact first_feature_accurate|].
  split; [reflexivity|]. split; [reflexivity|]. split; [exact Hplot|].
  destruct (plotted_slice_adds_up_to_probability (1 # 10000) model
              first_feature_explainer default_inputs
              [[three_quarters; quarter]] quarter s
              eq_refl first_feature_accurate eq_refl eq_refl Hplot)
    as (Hlen & _ & Hsum).
  split; [exact Hlen | exact Hsum].
Defined.

(** ** The recommendation texts *)

Lemma substring_prefix (b c : string) :
  String.substring 0 (String.length b) (b +:+ c) = b.
Proof.
  induction b as [|x b IH]; simpl; [destruct c; reflexivity | now rewrite IH].
Qed.

Lemma substring_middle (a b c : string) :
  String.substring (String.length a) (String.length b) (a +:+ b +:+ c) = b.
Proof.
  induction a as [|x a IH]; [apply (substring_prefix b c) | simpl; exact IH].
Qed.

(** A text that [String.index] does not find in a message is not carried
    by it. *)
Lemma not_carried (t : RiskTier) (text : string) :
  text <> "" ->
  String.index 0 text (message t) = None ->
  ~ carries t text.
Proof.
  intros Hne Hindex (before & after & H).
  apply (String.index_correct3 0 (String.length before) _ _ Hindex Hne);
    [lia|].
  rewrite H. apply substring_middle.
Qed.

(** C7, as amended: the High and Moderate messages carry the texts of the
    specification; the Low message carries "Continue routine ICU care and
    observation."; and the banner of a probability shows the
    message of its tier, as an error, a warning or a success. *)
Theorem tier_messages :
  carries High
    "Immediate evaluation and early aggressive intervention recommended." /\
  carries Moderate "Close monitoring and early warning advised." /\
  carries Low "Continue routine ICU care and observation." /\
  forall prob : spec_float,
    banner prob =
    ([match tier prob with
      | High => StError (message High)
      | Moderate => StWarning (message Moderate)
      | Low => StSuccess (message Low)
      end], Ok tt).
Proof.
  split; [exists "🚨 **High Risk**: ", ""; reflexivity|].
  split; [exists "⚠️ **Moderate Risk**: ", ""; reflexivity|].
  split; [exists "✅ **Low Risk**: ", ""; reflexivity|].
  apply banner_run.
Qed.

(** C7, as stated, fails on the Low tier: "Continue routine care and
    observation." occurs nowhere in its message. *)
Lemma low_message_differs :
  ~ carries Low "Continue routine care and observation.".
Proof.
  apply not_carried; [discriminate | vm_compute; reflexivity].
Qed.

(** ** The ranking *)

Section RankerFacts.

Import Ranker.

Lemma outranks_spec (x y : string * Q) :
  outranks x y = true <-> descending x y.
Proof. apply Qle_bool_iff. Qed.

Lemma not_outranks (x y : string * Q) :
  outranks x y = false -> descending y x.
Proof.
  intros H. unfold descending.
  destruct (Qlt_le_dec (magnitude x) (magnitude y)) as [Hlt|Hle].
  - apply Qlt_le_weak, Hlt.
  - apply outranks_spec in Hle. congruence.
Qed.

Lemma descending_trans (x y z : string * Q) :
  descending x y -> descending y z -> descending x z.
Proof. unfold descending. intros Hxy Hyz. eapply Qle_trans; eassumption. Qed.

Lemma insert_ranked_perm (x : string * Q) (l : list (string * Q)) :
  Permutation (insert_ranked x l) (x :: l).
Proof.
  induction l as [|y l IH]; simpl; [reflexivity|].
  destruct (outranks x y); [reflexivity|].
  rewrite IH. apply perm_swap.
Qed.

Lemma rank_entries_perm (l : list (string * Q)) :
  Permutation (rank_entries l) l.
Proof.
  induction l as [|x l IH]; simpl; [reflexivity|].
  rewrite insert_ranked_perm, IH. reflexivity.
Qed.

Lemma insert_ranked_sorted (x : string * Q) (l : list (string * Q)) :
  StronglySorted descending l -> StronglySorted descending (insert_ranked x l).
Proof.
  induction 1 as [|y l Hl IH Hy]; simpl.
  - repeat constructor.
  - destruct (outranks x y) eqn:Hxy.
    + apply outranks_spec in Hxy.
      constructor; [constructor; assumption|].
      constructor; [exact Hxy|].
      eapply Forall_impl; [exact Hy|].
      intros z Hz. exact (descending_trans _ _ _ Hxy Hz).
    + constructor; [exact IH|].
      apply not_outranks in Hxy.
      rewrite (insert_ranked_perm x l). constructor; assumption.
Qed.

Lemma rank_entries_sorted (l : list (string * Q)) :
  StronglySorted descending (rank_entries l).
Proof.
  induction l as [|x l IH]; simpl; [constructor|].
  apply insert_ranked_sorted, IH.
Qed.

(** Inserting [x] puts it in front of the entries of its magnitude. *)
Lemma of_magnitude_insert (q : Q) (x : string * Q) (l : list (string * Q)) :
  of_magnitude q (insert_ranked x l) = of_magnitude q (x :: l).
Proof.
  induction l as [|y l IH]; [reflexivity|].
  simpl insert_ranked. destruct (outranks x y) eqn:Hxy; [reflexivity|].
  unfold of_magnitude in *. simpl in *. rewrite IH.
  destruct (Qeq_bool (magnitude x) q) eqn:Hx;
    destruct (Qeq_bool (magnitude y) q) eqn:Hy; try reflexivity.
  apply Qeq_bool_iff in Hx, Hy.
  assert (Hd : descending x y).
  { unfold descending. rewrite Hx, Hy. apply Qle_refl. }
  apply outranks_spec in Hd. congruence.
Qed.

Lemma of_magnitude_rank (q : Q) (l : list (string * Q)) :
  of_magnitude q (rank_entries l) = of_magnitude q l.
Proof.
  induction l as [|x l IH]; [reflexivity|].
  simpl rank_entries. rewrite of_magnitude_insert.
  unfold of_magnitude in *. simpl. rewrite IH. reflexivity.
Qed.

(** A sequence already in descending order is left as it is. *)
Lemma rank_entries_fixed (l : list (string * Q)) :
  StronglySorted descending l -> rank_entries l = l.
Proof.
  induction 1 as [|x l Hl IH Hx]; [reflexivity|].
  simpl. rewrite IH. destruct l as [|y l]; [reflexivity|].
  simpl. apply Forall_cons in Hx as [Hxy _].
  apply outranks_spec in Hxy. rewrite Hxy. reflexivity.
Qed.

End RankerFacts.

(** C8: the ranked sequence is in descending order of absolute
    contribution; it has the entries of the vector, each as often; entries
    of equal magnitude keep the order they have in the vector; an empty
    vector gives the empty sequence; and ranking again, the vector or the
    ranked sequence itself, gives the same sequence. *)
Theorem rank_is_stable_descending (v : Ranker.AttributionVector) :
  StronglySorted Ranker.descending (Ranker.rank v) /\
  Permutation (Ranker.rank v) (Ranker.contributions v) /\
  (forall q : Q,
     Ranker.of_magnitude q (Ranker.rank v)
     = Ranker.of_magnitude q (Ranker.contributions v)) /\
  (Ranker.contributions v = [] -> Ranker.rank v = []) /\
  (forall v' : Ranker.AttributionVector,
     Ranker.contributions v' = Ranker.contributions v ->
     Ranker.rank v' = Ranker.rank v) /\
  Ranker.rank {| Ranker.baseline := Ranker.baseline v;
                 Ranker.contributions := Ranker.rank v |}
  = Ranker.rank v.
Proof.
  unfold Ranker.rank. simpl.
  split; [apply rank_entries_sorted|].
  split; [apply rank_entries_perm|].
  split; [intros q; apply of_magnitude_rank|].
  split; [intros ->; reflexivity|].
  split; [intros v' ->; reflexivity|].
  apply rank_entries_fixed, rank_entries_sorted.
Qed.

Example rank_sample :
  Ranker.rank
    {| Ranker.baseline := 1 # 10;
       Ranker.contributions :=
         [("age", 1 # 10); ("SOFA", - (3 # 10)); ("WBC", 3 # 10);
          ("BUN", - (1 # 10))]%Q |}
  = [("SOFA", - (3 # 10)); ("WBC", 3 # 10); ("age", 1 # 10);
     ("BUN", - (1 # 10))]%Q.
Proof. vm_compute. reflexivity. Qed.

(** * Further properties of the script *)

(** ** The thresholds read as real numbers *)

Lemma digits2_size (m : positive) : digits2_pos m = Pos.size m.
Proof. induction m; simpl; congruence. Qed.

Lemma digits2_bounds (m : positive) :
  Z.pos m < 2 ^ Z.pos (digits2_pos m) <= 2 * Z.pos m.
Proof.
  rewrite digits2_size.
  pose proof (Pos.size_gt m) as Hgt. pose proof (Pos.size_le m) as Hle.
  rewrite <- Pos2Z.inj_pow. lia.
Qed.

(** The mantissa of a well-formed double is below [2^53], and at least
    [2^52] unless the double is subnormal. *)
Lemma bounded_mantissa (m : positive) (e : Z) :
  bounded Float64.prec Float64.emax m e = true ->
  Z.pos m < 2 ^ 53 /\ (e <> -1074 -> 2 ^ 52 <= Z.pos m).
Proof.
  unfold bounded, canonical_mantissa, fexp, emin, Float64.prec, Float64.emax.
  intros H. apply andb_prop in H as [H _]. apply Z.eqb_eq in H.
  pose proof (digits2_bounds m) as [Hlt Hle].
  set (d := Z.pos (digits2_pos m)) in *.
  assert (Hd : 0 < d) by (unfold d; lia).
  assert (Hd53 : d <= 53) by lia.
  split.
  - apply Z.lt_le_trans with (2 ^ d); [exact Hlt|].
    apply Z.pow_le_mono_r; lia.
  - intros He. assert (d = 53) as Hd' by lia. rewrite Hd' in Hle. lia.
Qed.

Lemma Qle_to_Q_pos (a b m : positive) (e : Z) :
  (Z.pos a # b <= Float64.to_Q (S754_finite false m e))%Q <->
  match e with
  | Z.neg k => Z.pos a * 2 ^ Z.pos k <= Z.pos m * Z.pos b
  | _ => Z.pos a <= Z.pos m * 2 ^ e * Z.pos b
  end.
Proof.
  unfold Float64.to_Q, Qle, inject_Z.
  destruct e as [|k|k]; cbn [Qnum Qden].
  - rewrite Z.pow_0_r. lia.
  - lia.
  - rewrite Pos2Z.inj_pow. lia.
Qed.

Lemma to_Q_negative (m : positive) (e : Z) :
  (Float64.to_Q (S754_finite true m e) < 0)%Q.
Proof.
  unfold Float64.to_Q, Qlt, inject_Z.
  destruct e as [|k|k]; cbn [Qnum Qden].
  - lia.
  - assert (0 < 2 ^ Z.pos k) by (apply Z.pow_pos_nonneg; lia). nia.
  - lia.
Qed.

Lemma leb_of_compare (c : comparison) :
  match c with Gt => false | _ => true end = true <-> c <> Gt.
Proof. destruct c; split; congruence. Qed.

(** [prob >= 0.20], against the double nearest to one fifth, holds exactly
    when the real value of [prob] is at least one fifth: no double lies
    between the two. *)
Lemma ge_c020_exact (p : spec_float) :
  Float64.valid p = true -> Float64.is_finite p = true ->
  Float64.ge p Float64.c020 = true <-> (1 # 5 <= Float64.to_Q p)%Q.
Proof.
  intros Hv Hf. destruct p as [s|s| |s m e]; try discriminate Hf.
  - split; [discriminate|]. intros H. exfalso. revert H. apply Qlt_not_le.
    reflexivity.
  - destruct s.
    + split; [discriminate|]. intros H. exfalso. revert H. apply Qlt_not_le.
      eapply Qlt_trans; [apply to_Q_negative | reflexivity].
    + apply bounded_mantissa in Hv as [Hlt Hnorm].
      rewrite Qle_to_Q_pos. unfold Float64.ge, SFleb, Float64.c020.
      rewrite SFcompare_finite_pos.
      destruct (Z.compare_spec (-55) e) as [He|He|He].
      * subst e. rewrite leb_of_compare.
        change ((7205759403792794 ?= m)%positive <> Gt)
          with (7205759403792794 <= m)%positive.
        lia.
      * split; [intros _|reflexivity].
        assert (H52 : 2 ^ 52 <= Z.pos m) by (apply Hnorm; lia).
        destruct e as [|k|k].
        -- lia.
        -- assert (0 < 2 ^ Z.pos k) by (apply Z.pow_pos_nonneg; lia). nia.
        -- assert (2 ^ Z.pos k <= 2 ^ 54) by (apply Z.pow_le_mono_r; lia).
           lia.
      * split; [discriminate|]. intros H. exfalso.
        destruct e as [|k|k]; try lia.
        assert (2 ^ 56 <= 2 ^ Z.pos k) by (apply Z.pow_le_mono_r; lia).
        lia.
Qed.

Lemma ge_c050_exact (p : spec_float) :
  Float64.valid p = true -> Float64.is_finite p = true ->
  Float64.ge p Float64.c050 = true <-> (1 # 2 <= Float64.to_Q p)%Q.
Proof.
  intros Hv Hf. destruct p as [s|s| |s m e]; try discriminate Hf.
  - split; [discriminate|]. intros H. exfalso. revert H. apply Qlt_not_le.
    reflexivity.
  - destruct s.
    + split; [discriminate|]. intros H. exfalso. revert H. apply Qlt_not_le.
      eapply Qlt_trans; [apply to_Q_negative | reflexivity].
    + apply bounded_mantissa in Hv as [Hlt Hnorm].
      rewrite Qle_to_Q_pos. unfold Float64.ge, SFleb, Float64.c050.
      rewrite SFcompare_finite_pos.
      destruct (Z.compare_spec (-53) e) as [He|He|He].
      * subst e. rewrite leb_of_compare.
        change ((4503599627370496 ?= m)%positive <> Gt)
          with (4503599627370496 <= m)%positive.
        lia.
      * split; [intros _|reflexivity].
        assert (H52 : 2 ^ 52 <= Z.pos m) by (apply Hnorm; lia).
        destruct e as [|k|k].
        -- lia.
        -- assert (0 < 2 ^ Z.pos k) by (apply Z.pow_pos_nonneg; lia). nia.
        -- assert (2 ^ Z.pos k <= 2 ^ 52) by (apply Z.pow_le_mono_r; lia).
           lia.
      * split; [discriminate|]. intros H. exfalso.
        destruct e as [|k|k]; try lia.
        assert (2 ^ 54 <= 2 ^ Z.pos k) by (apply Z.pow_le_mono_r; lia).
        lia.
Qed.

(** X1: for every well-formed finite double, the tier depends on its real
    value alone: High exactly from one half up, Moderate exactly from one
    fifth up to one half excluded, Low exactly below one fifth. The literal
    [0.20], which is not one fifth, moves no double across the boundary. *)
Theorem tier_by_real_value (p : spec_float) :
  Float64.valid p = true -> Float64.is_finite p = true ->
  (tier p = High <-> (1 # 2 <= Float64.to_Q p)%Q) /\
  (tier p = Moderate <->
     (1 # 5 <= Float64.to_Q p)%Q /\ (Float64.to_Q p < 1 # 2)%Q) /\
  (tier p = Low <-> (Float64.to_Q p < 1 # 5)%Q).
Proof.
  intros Hv Hf.
  pose proof (ge_c050_exact p Hv Hf) as H50.
  pose proof (ge_c020_exact p Hv Hf) as H20.
  rewrite tier_high_iff, tier_moderate_iff, tier_low_iff.
  split; [exact H50|]. split.
  - rewrite H20. split; intros [Ha Hb]; split; trivial.
    + apply Qnot_le_lt. intros Hc. apply H50 in Hc. congruence.
    + destruct (Float64.ge p Float64.c050) eqn:Hge; [|reflexivity].
      exfalso. apply (Qlt_not_le _ _ Hb), H50. reflexivity.
  - split; intros Ha.
    + apply Qnot_le_lt. intros Hc. apply H20 in Hc. congruence.
    + destruct (Float64.ge p Float64.c020) eqn:Hge; [|reflexivity].
      exfalso. apply (Qlt_not_le _ _ Ha), H20. reflexivity.
Qed.

Lemma tier_by_real_value_witness :
  Float64.valid Float64.c020 = true /\
  Float64.is_finite Float64.c020 = true /\
  (tier Float64.c020 = Moderate <->
     (1 # 5 <= Float64.to_Q Float64.c020)%Q /\
     (Float64.to_Q Float64.c020 < 1 # 2)%Q).
Proof.
  split; [reflexivity|]. split; [reflexivity|].
  apply (tier_by_real_value Float64.c020); reflexivity.
Defined.

(** ** The tier grows with the probability *)

Lemma SFleb_finite_pos (m1 m2 : positive) (e1 e2 : Z) :
  SFleb (S754_finite false m1 e1) (S754_finite false m2 e2) = true <->
  e1 < e2 \/ (e1 = e2 /\ (m1 <= m2)%positive).
Proof.
  unfold SFleb. rewrite SFcompare_finite_pos.
  destruct (Z.compare_spec e1 e2) as [He|He|He].
  - rewrite leb_of_compare.
    change ((m1 ?= m2)%positive <> Gt) with (m1 <= m2)%positive.
    split; [auto | intros [H|[_ H]]; [lia | exact H]].
  - split; [auto | reflexivity].
  - split; [discriminate | lia].
Qed.

(** Above a positive finite double, the order of doubles is transitive. *)
Lemma SFleb_trans_pos (mc : positive) (ec : Z) (a b : spec_float) :
  SFleb (S754_finite false mc ec) a = true ->
  SFleb a b = true ->
  SFleb (S754_finite false mc ec) b = true.
Proof.
  destruct a as [sa|sa| |sa ma ea]; try (destruct sa); try discriminate;
    destruct b as [sb|sb| |sb mb eb]; try (destruct sb);
    try discriminate; try reflexivity.
  rewrite !SFleb_finite_pos. lia.
Qed.

(** X2: the tier never goes down when the probability goes up. *)
Theorem tier_monotone (a b : spec_float) :
  Float64.ge b a = true ->
  (tier_rank (tier a) <= tier_rank (tier b))%nat.
Proof.
  intros Hab. destruct (tier a) eqn:Ha; simpl; [lia| |].
  - apply tier_moderate_iff in Ha as [Ha _].
    assert (Hb : Float64.ge b Float64.c020 = true)
      by exact (SFleb_trans_pos _ _ _ _ Ha Hab).
    destruct (tier b) eqn:Hb'; simpl; try lia.
    apply tier_low_iff in Hb'. congruence.
  - apply tier_high_iff in Ha.
    assert (Hb : Float64.ge b Float64.c050 = true)
      by exact (SFleb_trans_pos _ _ _ _ Ha Hab).
    apply tier_high_iff in Hb. rewrite Hb. simpl. lia.
Qed.

Lemma tier_monotone_witness :
  Float64.ge Float64.c050 Float64.c020 = true /\
  (tier_rank (tier Float64.c020) <= tier_rank (tier Float64.c050))%nat.
Proof.
  split; [reflexivity|]. apply tier_monotone. reflexivity.
Defined.

(** ** How a run can end *)

(** A table of class probabilities has no entry (0, 1) exactly when it has
    no row or its first row has fewer than two columns. *)
Lemma positive_class_of_first_None (proba : list (list spec_float)) :
  positive_class_of_first proba = None <->
  proba = [] \/
  exists row rest, proba = row :: rest /\ (length row < 2)%nat.
Proof.
  unfold positive_class_of_first.
  destruct proba as [|row rest]; simpl.
  - split; auto.
  - split.
    + intros H. right. exists row, rest. split; [reflexivity|].
      apply lookup_ge_None in H. lia.
    + intros [H|(row' & rest' & H & Hlen)]; [discriminate H|].
      injection H as <- <-. apply lookup_ge_None. lia.
Qed.

(** X3: when no probability can be read, because the classifier raises or
    because its answer has no entry (0, 1), the run stops on that error
    and its only effect is the call of the classifier: nothing is
    displayed and the explainer is not called. The second case is that of
    an empty answer or of a first row with fewer than two classes. *)
Theorem no_probability_no_display (model : Classifier)
    (shap_Explainer : Explainer) (r : RawInputs) :
  let X := input_data r (feature_names_in_ model) in
  (predict_proba model X = None ->
   script model shap_Explainer r true
   = ([CallPredictProba X], Raise ClassifierError)) /\
  (forall proba : list (list spec_float),
     predict_proba model X = Some proba ->
     (proba = [] \/
      exists row rest, proba = row :: rest /\ (length row < 2)%nat) ->
     script model shap_Explainer r true
     = ([CallPredictProba X], Raise IndexError)) /\
  ((script model shap_Explainer r true).2 = Raise ClassifierError ->
   (script model shap_Explainer r true).1 = [CallPredictProba X]).
Proof.
  intros X. rewrite script_pressed. cbv zeta. fold X.
  split; [intros ->; reflexivity|]. split.
  - intros proba -> H. apply positive_class_of_first_None in H.
    rewrite H. reflexivity.
  - destruct (predict_proba model X) as [proba|]; [|reflexivity].
    destruct (positive_class_of_first proba) as [prob|]; [|discriminate].
    destruct (shap_Explainer model (columns X) X) as [e|]; [|discriminate].
    destruct (getitem e 0 1); discriminate.
Qed.

(** X4: a failure of the explanation comes after the display of the
    prediction. When the explainer raises, or when its answer cannot be
    sliced at (0, :, 1), the run stops on [ExplainerError] or
    [IndexError]; the probability and the banner of its tier are on the
    page by then, and nothing is plotted. *)
Theorem explanation_failure_keeps_prediction (model : Classifier)
    (shap_Explainer : Explainer) (r : RawInputs)
    (proba : list (list spec_float)) (prob : spec_float) :
  let X := input_data r (feature_names_in_ model) in
  predict_proba model X = Some proba ->
  positive_class_of_first proba = Some prob ->
  (shap_Explainer model (columns X) X = None ->
   script model shap_Explainer r true
   = (shown_before_explanation X prob, Raise ExplainerError)) /\
  (forall e : Explanation,
     shap_Explainer model (columns X) X = Some e ->
     getitem e 0 1 = None ->
     script model shap_Explainer r true
     = (shown_before_explanation X prob, Raise IndexError)) /\
  StMetric "Probability of Septic Shock Within 12 Hours" prob
  ∈ shown_before_explanation X prob /\
  (exists ev, ev ∈ shown_before_explanation X prob /\ is_banner ev = true) /\
  (forall s : Explanation1, Waterfall s ∉ shown_before_explanation X prob) /\
  StPyplot ∉ shown_before_explanation X prob.
Proof.
  intros X Hcall Hprob. rewrite script_pressed. cbv zeta. fold X.
  rewrite Hcall, Hprob.
  split; [intros ->; reflexivity|].
  split; [intros e -> ->; reflexivity|].
  split; [apply metric_in_shown|].
  split.
  { eexists. split; [unfold shown_before_explanation; do 3 right; left|].
    destruct (tier prob); reflexivity. }
  split; [intros s H | intros H];
    unfold shown_before_explanation in H; trace_cases H.
Qed.

Lemma explanation_failure_keeps_prediction_witness :
  let model := constant_model known_names three_quarters quarter in
  let failing : Explainer := fun _ _ _ => None in
  let X := input_data default_inputs known_names in
  predict_proba model X = Some [[three_quarters; quarter]] /\
  positive_class_of_first [[three_quarters; quarter]] = Some quarter /\
  script model failing default_inputs true
  = (shown_before_explanation X quarter, Raise ExplainerError).
Proof.
  intros model failing X.
  split; [reflexivity|]. split; [reflexivity|].
  exact (proj1 (explanation_failure_keeps_prediction model failing
                  default_inputs [[three_quarters; quarter]] quarter
                  eq_refl eq_refl) eq_refl).
Defined.

(** The trace of a run in which a probability is read. *)
Lemma trace_with_probability (model : Classifier)
    (shap_Explainer : Explainer) (r : RawInputs)
    (proba : list (list spec_float)) (prob : spec_float) :
  let X := input_data r (feature_names_in_ model) in
  predict_proba model X = Some proba ->
  positive_class_of_first proba = Some prob ->
  (script model shap_Explainer r true).1 = shown_before_explanation X prob \/
  exists s,
    (script model shap_Explainer r true).1
    = shown_before_explanation X prob ++ [Waterfall s; StPyplot].
Proof.
  intros X Hcall Hprob. rewrite script_pressed. cbv zeta. fold X.
  rewrite Hcall, Hprob.
  destruct (shap_Explainer model (columns X) X) as [e|]; [|left; reflexivity].
  destruct (getitem e 0 1) as [s|]; [right; exists s|left]; reflexivity.
Qed.

(** X5: the banner agrees with the probability read from the classifier,
    the double itself and not its rounding to two decimals on the page.
    When entry (0, 1) of the classifier's answer is [prob], an error banner
    is on the page exactly when [prob >= 0.50], a warning exactly when
    [prob >= 0.20] without [prob >= 0.50], a success banner exactly when
    [prob >= 0.20] fails; and the banner carries the message of that
    tier. *)
Theorem banner_matches_probability (model : Classifier)
    (shap_Explainer : Explainer) (r : RawInputs)
    (proba : list (list spec_float)) (prob : spec_float) :
  predict_proba model (input_data r (feature_names_in_ model)) = Some proba ->
  positive_class_of_first proba = Some prob ->
  (forall m : string,
     StError m ∈ (script model shap_Explainer r true).1 <->
     Float64.ge prob Float64.c050 = true /\ m = message High) /\
  (forall m : string,
     StWarning m ∈ (script model shap_Explainer r true).1 <->
     (Float64.ge prob Float64.c020 = true /\
      Float64.ge prob Float64.c050 = false) /\ m = message Moderate) /\
  (forall m : string,
     StSuccess m ∈ (script model shap_Explainer r true).1 <->
     Float64.ge prob Float64.c020 = false /\ m = message Low).
Proof.
  intros Hcall Hprob.
  setoid_rewrite <- tier_high_iff. setoid_rewrite <- tier_moderate_iff.
  setoid_rewrite <- tier_low_iff.
  destruct (trace_with_probability _ shap_Explainer _ _ _ Hcall Hprob)
    as [->|[s ->]];
    unfold shown_before_explanation;
    (split; [|split]; intros m);
    (split;
     [ intros Hm; trace_cases Hm; auto; congruence
     | intros [Ht ->]; rewrite Ht;
       first [ do 3 right; left | apply elem_of_app; left; do 3 right; left ]
     ]).
Qed.

Lemma banner_matches_probability_witness :
  let model := constant_model known_names three_quarters quarter in
  let shap_Explainer := base_only_explainer three_quarters quarter in
  predict_proba model (input_data default_inputs (feature_names_in_ model))
  = Some [[three_quarters; quarter]] /\
  positive_class_of_first [[three_quarters; quarter]] = Some quarter /\
  (StWarning (message Moderate)
   ∈ (script model shap_Explainer default_inputs true).1 <->
   (Float64.ge quarter Float64.c020 = true /\
    Float64.ge quarter Float64.c050 = false) /\
   message Moderate = message Moderate).
Proof.
  intros model shap_Explainer.
  split; [reflexivity|]. split; [reflexivity|].
  exact (proj1 (proj2 (banner_matches_probability model shap_Explainer
                         default_inputs [[three_quarters; quarter]] quarter
                         eq_refl eq_refl)) (message Moderate)).
Defined.

(** X6: a run calls the classifier once and the explainer at most once, in
    that order, and both on the frame built from the inputs; the names
    given to the explainer are the classifier's expected names. *)
Theorem calls_of_a_run (model : Classifier) (shap_Explainer : Explainer)
    (r : RawInputs) :
  let X := input_data r (feature_names_in_ model) in
  let calls := List.filter is_call (script model shap_Explainer r true).1 in
  calls = [CallPredictProba X] \/
  calls = [CallPredictProba X; CallExplainer (feature_names_in_ model) X].
Proof.
  intros X calls. unfold calls. rewrite script_pressed. cbv zeta. fold X.
  destruct (predict_proba model X) as [proba|]; [|left; reflexivity].
  destruct (positive_class_of_first proba) as [prob|]; [|left; reflexivity].
  right.
  destruct (shap_Explainer model (columns X) X) as [e|];
    [destruct (getitem e 0 1)|];
    cbn [fst]; unfold shown_before_explanation; simpl;
    destruct (tier prob); reflexivity.
Qed.

(** X7: a run comes to its end exactly when the four steps succeed: the
    classifier answers, its answer has an entry (0, 1), the explainer
    answers, and its answer can be sliced at (0, :, 1). The page then
    holds the prediction followed by the plot of that slice. *)
Theorem run_completes_iff (model : Classifier) (shap_Explainer : Explainer)
    (r : RawInputs) :
  let X := input_data r (feature_names_in_ model) in
  (script model shap_Explainer r true).2 = Ok tt <->
  exists proba prob e s,
    predict_proba model X = Some proba /\
    positive_class_of_first proba = Some prob /\
    shap_Explainer model (columns X) X = Some e /\
    getitem e 0 1 = Some s /\
    (script model shap_Explainer r true).1
    = shown_before_explanation X prob ++ [Waterfall s; StPyplot].
Proof.
  intros X. rewrite script_pressed. cbv zeta. fold X. split.
  - destruct (predict_proba model X) as [proba|]; [|discriminate].
    destruct (positive_class_of_first proba) as [prob|] eqn:Hprob;
      [|discriminate].
    destruct (shap_Explainer model (columns X) X) as [e|]; [|discriminate].
    destruct (getitem e 0 1) as [s|] eqn:Hs; [|discriminate].
    intros _. exists proba, prob, e, s. repeat split; assumption.
  - intros (proba & prob & e & s & -> & -> & -> & -> & _). reflexivity.
Qed.

(** ** Slicing an explanation *)

Lemma getitem_bounds (e : Explanation) (n k i c : nat) :
  shaped e n k -> is_Some (getitem e i c) -> (i < n)%nat /\ (c < k)%nat.
Proof.
  intros (Hv & Hb & _ & _ & Hbk) [s Hs].
  apply getitem_Some in Hs
    as (sample & bases & Hsample & _ & Hbases & Hbase & _ & _).
  split.
  - rewrite <- Hv. eapply lookup_lt_Some, Hsample.
  - pose proof (Forall_lookup_1 _ _ _ _ Hbk Hbases) as Hlen. simpl in Hlen.
    rewrite <- Hlen. eapply lookup_lt_Some, Hbase.
Qed.

(** X9: with an explanation that has a single class per sample, the slice
    (0, :, 1) does not exist; the run stops on [IndexError] once the
    prediction is displayed. *)
Theorem single_output_explanation_fails (model : Classifier)
    (shap_Explainer : Explainer) (r : RawInputs)
    (proba : list (list spec_float)) (prob : spec_float)
    (e : Explanation) (n : nat) :
  let X := input_data r (feature_names_in_ model) in
  predict_proba model X = Some proba ->
  positive_class_of_first proba = Some prob ->
  shap_Explainer model (columns X) X = Some e ->
  shaped e n 1 ->
  script model shap_Explainer r true
  = (shown_before_explanation X prob, Raise IndexError).
Proof.
  intros X Hcall Hprob Hshap Hshape.
  rewrite script_pressed. cbv zeta. fold X. rewrite Hcall, Hprob, Hshap.
  destruct (getitem e 0 1) as [s|] eqn:Hs; [|reflexivity].
  assert (H : is_Some (getitem e 0 1)) by (rewrite Hs; eauto).
  apply (getitem_bounds e n 1 0 1 Hshape) in H. lia.
Qed.

Lemma single_output_explanation_fails_witness :
  let model := constant_model known_names three_quarters quarter in
  let shap_Explainer := single_output_explainer quarter in
  let X := input_data default_inputs known_names in
  let e := single_output_explanation quarter known_names X in
  predict_proba model X = Some [[three_quarters; quarter]] /\
  positive_class_of_first [[three_quarters; quarter]] = Some quarter /\
  shap_Explainer model (columns X) X = Some e /\
  shaped e 1 1 /\
  script model shap_Explainer default_inputs true
  = (shown_before_explanation X quarter, Raise IndexError).
Proof.
  intros model shap_Explainer X e.
  assert (Hshape : shaped e 1 1) by (repeat split; repeat constructor).
  repeat (split; [first [reflexivity | exact Hshape]|]).
  exact (single_output_explanation_fails model shap_Explainer default_inputs
           [[three_quarters; quarter]] quarter e 1
           eq_refl eq_refl eq_refl Hshape).
Defined.

(** ** The frame and the inputs *)

Lemma lookup_zip_map (f : string -> cell) (cols : list string) (k : string) :
  (list_to_map (zip cols (map f cols)) : gmap string cell) !! k
  = if decide (k ∈ cols) then Some (f k) else None.
Proof.
  induction cols as [|c cols IH]; simpl.
  - rewrite lookup_empty. destruct (decide (k ∈ [])) as [H|H]; [|reflexivity].
    apply elem_of_nil in H. contradiction.
  - rewrite lookup_insert. destruct (decide (c = k)) as [->|Hne].
    + destruct (decide (k ∈ k :: cols)) as [H|H]; [reflexivity|].
      exfalso. apply H. left.
    + rewrite IH.
      destruct (decide (k ∈ cols)) as [H|H];
        destruct (decide (k ∈ c :: cols)) as [H'|H']; try reflexivity.
      * exfalso. apply H'. right. exact H.
      * exfalso. apply elem_of_cons in H' as [->|H']; [congruence|auto].
Qed.

Lemma record_dict_known (r : RawInputs) (name : string) :
  (name ∈ known_names) -> is_Some (record_dict r !! name).
Proof.
  intros H. destruct (record_dict r !! name) as [c|] eqn:Hc; [eauto|].
  exfalso. apply not_elem_of_list_to_map in Hc. apply Hc. exact H.
Qed.

(** X10: when the classifier expects the names of the form, in any order,
    reading the row of the frame back under its column labels gives the
    dictionary of the inputs: nothing is lost, nothing is added. *)
Theorem frame_round_trip (r : RawInputs) (cols : list string) :
  (forall k : string, k ∈ cols <-> k ∈ known_names) ->
  exists row,
    rows (input_data r cols) = [row] /\
    list_to_map (zip (columns (input_data r cols)) row) = record_dict r.
Proof.
  intros Hcols. eexists. split; [apply input_data_rows|].
  apply map_eq. intros k. rewrite input_data_columns, lookup_zip_map.
  destruct (decide (k ∈ cols)) as [H|H].
  - apply Hcols in H. destruct (record_dict_known r k H) as [c ->].
    reflexivity.
  - symmetry. apply record_dict_unknown. intros Hk. apply H, Hcols, Hk.
Qed.

Lemma frame_round_trip_witness :
  (forall k : string, k ∈ reverse known_names <-> k ∈ known_names) /\
  exists row,
    rows (input_data default_inputs (reverse known_names)) = [row] /\
    list_to_map (zip (columns (input_data default_inputs (reverse known_names)))
                   row)
    = record_dict default_inputs.
Proof.
  assert (H : forall k : string, k ∈ reverse known_names <-> k ∈ known_names)
    by (intros k; apply elem_of_reverse).
  split; [exact H|].
  exact (frame_round_trip default_inputs (reverse known_names) H).
Defined.

Lemma between_not_nan (lo x hi : spec_float) :
  between lo x hi -> x <> S754_nan.
Proof.
  intros [H _] ->. unfold SFleb in H. destruct lo; simpl in H; discriminate H.
Qed.

(** Within the ranges of the widgets no input is NaN, so no cell read
    from the dictionary is the missing value. *)
Lemma known_cell_not_NaN (r : RawInputs) (name : string) :
  widget_ranges r -> (name ∈ known_names) ->
  default NaN (record_dict r !! name) <> NaN.
Proof.
  intros (_ & _ & _ & _ & _ & Ht & Hw & Ha & _) Hname.
  apply between_not_nan in Ht, Hw, Ha.
  destruct r; simpl in Ht, Hw, Ha.
  unfold known_names in Hname.
  repeat (apply elem_of_cons in Hname as [->|Hname];
          [vm_compute; intros H; first [discriminate H | congruence]|]).
  apply elem_of_nil in Hname. contradiction.
Qed.

(** X11: with inputs within the ranges of the widgets, the row of the
    frame has a missing value exactly when the classifier expects a name
    that is not one of the fifteen inputs. *)
Theorem missing_value_iff_unknown_name (r : RawInputs) (cols : list string) :
  widget_ranges r ->
  forall row : list cell,
    rows (input_data r cols) = [row] ->
    NaN ∈ row <-> exists name : string, name ∈ cols /\ name ∉ known_names.
Proof.
  intros Hr row Hrow. rewrite input_data_rows in Hrow.
  injection Hrow as <-. split.
  - intros H. apply list_elem_of_In, in_map_iff in H as (name & Hcell & Hin).
    apply list_elem_of_In in Hin. exists name. split; [exact Hin|].
    intros Hknown. exact (known_cell_not_NaN r name Hr Hknown Hcell).
  - intros (name & Hin & Hname).
    apply list_elem_of_In, in_map_iff. exists name. split.
    + rewrite (record_dict_unknown r name Hname). reflexivity.
    + apply list_elem_of_In, Hin.
Qed.

Lemma default_inputs_in_range : widget_ranges default_inputs.
Proof. unfold widget_ranges, between. simpl. repeat split; lia. Qed.

Lemma missing_value_iff_unknown_name_witness :
  widget_ranges default_inputs /\
  (NaN ∈ map (fun c => default NaN (record_dict default_inputs !! c))
           (known_names ++ ["lactate"])
   <-> exists name : string,
         name ∈ known_names ++ ["lactate"] /\ name ∉ known_names).
Proof.
  split; [exact default_inputs_in_range|].
  exact (missing_value_iff_unknown_name default_inputs
           (known_names ++ ["lactate"]) default_inputs_in_range _ eq_refl).
Defined.
